(** * Imgfans-js: a shallow embedding of [src/src/index.ts]

    JavaScript strings are sequences of UTF-16 code units, modelled as
    [list Z].  Thrown values are an inductive type, fallible (and async)
    code returns [thrown + A].  The file system, the HTTP fetch used for URL
    inputs and the WHATWG URL parser are parameters of the environment. *)

From Stdlib Require Import ZArith List String Ascii Bool Lia.
Import ListNotations.
Open Scope Z_scope.
Set Warnings "-register-all".

(** ** JavaScript strings *)

Definition jsstring := list Z.

(** A string literal of the source, as code units. *)
Definition js (s : string) : jsstring :=
  map (fun a => Z.of_nat (nat_of_ascii a)) (list_ascii_of_string s).

Definition jsstring_eqb (a b : jsstring) : bool :=
  if list_eq_dec Z.eq_dec a b then true else false.

Definition opt_eqb {A} (eqb : A -> A -> bool) (a b : option A) : bool :=
  match a, b with
  | Some x, Some y => eqb x y
  | None, None => true
  | _, _ => false
  end.

(** [String.prototype.startsWith] *)
Fixpoint startsWith (s p : jsstring) : bool :=
  match p, s with
  | [], _ => true
  | c :: p', d :: s' => (c =? d) && startsWith s' p'
  | _ :: _, [] => false
  end.

(** Truthiness of [string | undefined]: [undefined] and the empty string are falsy. *)
Definition truthy_str (o : option jsstring) : bool :=
  match o with
  | Some (_ :: _) => true
  | _ => false
  end.

(** [a || b] where [a : string | undefined] and [b : string]. *)
Definition or_str (a : option jsstring) (b : jsstring) : jsstring :=
  match a with
  | Some (c :: s) => c :: s
  | _ => b
  end.

(** ** JavaScript values *)

(** A JSON-like JavaScript value: what the server sends, and any other
    value the code reads properties of.  [JNumber n] is the number [n]; the
    numbers of the JSON answers are taken to be safe integers
    ([|n| <= 2^53]). *)
Inductive jsval :=
| JUndefined
| JNull
| JBool (b : bool)
| JNumber (n : Z)
| JString (s : jsstring)
| JArray (elems : list jsval)
| JObject (props : list (jsstring * jsval)).

(** ** Thrown values *)

(** [error.response] of an axios error: its [status] and its [data] (the
    parsed body, [JUndefined] when there is none). *)
Record axios_response := mk_axios_response {
  ax_status : Z;
  ax_data : jsval
}.

(** An axios error: its [message] (a string), its [code] and its
    [response]. *)
Record axios_error := mk_axios_error {
  ax_message : jsstring;
  ax_code : option jsstring;
  ax_response : option axios_response
}.

(** A value thrown at run time: an axios error, a [TypeError], any other
    [Error], an [ImgfansError] (message, statusCode, response, cause), or a
    value that is not an [Error] at all ([undefined], [null], a primitive, a
    plain object or array). *)
Inductive thrown :=
| TAxios (e : axios_error)
| TTypeError (message : jsstring)
| TPlain (message : jsstring)
| TImgfans (message : jsstring) (statusCode : jsval) (response : jsval)
           (cause : option thrown)
| TValue (v : jsval).

Definition bind {A B} (m : thrown + A) (f : A -> thrown + B) : thrown + B :=
  match m with
  | inl e => inl e
  | inr a => f a
  end.

Notation "'let!' x := m 'in' f" := (bind m (fun x => f))
  (at level 200, x name, m at level 100, f at level 200).

(** ** Property reads *)

Fixpoint lookup_prop (k : jsstring) (ps : list (jsstring * jsval)) : jsval :=
  match ps with
  | [] => JUndefined
  | (k', v) :: ps' => if jsstring_eqb k k' then v else lookup_prop k ps'
  end.

Definition has_prop (k : jsstring) (ps : list (jsstring * jsval)) : bool :=
  existsb (fun kv => jsstring_eqb k (fst kv)) ps.

(** [v.k]: a [TypeError] on [undefined] and [null]; an absent property, or
    any property this code reads of a primitive or an array, reads as
    [undefined]. *)
Definition get (v : jsval) (k : jsstring) : thrown + jsval :=
  match v with
  | JUndefined =>
      inl (TTypeError (js "Cannot read properties of undefined (reading '" ++ k ++ js "')"))
  | JNull =>
      inl (TTypeError (js "Cannot read properties of null (reading '" ++ k ++ js "')"))
  | JObject ps => inr (lookup_prop k ps)
  | _ => inr JUndefined
  end.

(** [v?.k] *)
Definition opt_get (v : jsval) (k : jsstring) : jsval :=
  match v with
  | JObject ps => lookup_prop k ps
  | _ => JUndefined
  end.

Definition truthy (v : jsval) : bool :=
  match v with
  | JUndefined | JNull => false
  | JBool b => b
  | JNumber n => negb (n =? 0)
  | JString s => match s with [] => false | _ => true end
  | JArray _ | JObject _ => true
  end.

(** [a || b] *)
Definition js_or (a b : jsval) : jsval := if truthy a then a else b.

(** [v === n] for a number [n], and [v === s] for a string [s]. *)
Definition is_number (v : jsval) (n : Z) : bool :=
  match v with
  | JNumber m => m =? n
  | _ => false
  end.

Definition is_string (v : jsval) (s : jsstring) : bool :=
  match v with
  | JString t => jsstring_eqb t s
  | _ => false
  end.

(** ** String conversion *)

(** The decimal digits of [n >= 0]; [fuel] bounds their number. *)
Fixpoint dec_digits (fuel : nat) (n : Z) : jsstring :=
  match fuel with
  | O => []
  | S f => if n <? 10 then [48 + n] else dec_digits f (n / 10) ++ [48 + n mod 10]
  end.

(** [Number.prototype.toString] on a safe integer. *)
Definition number_to_string (n : Z) : jsstring :=
  if n <? 0 then 45 :: dec_digits (Z.to_nat (Z.log2 (- n) + 1)) (- n)
  else dec_digits (Z.to_nat (Z.log2 n + 1)) n.

Definition k_toString := js "toString".

Definition cannot_convert_msg : jsstring := js "Cannot convert object to primitive value".

(** [String(v)], as [new Error(v)] applies it to its message.  An array is
    joined with [","] (holding [undefined] and [null] as empty strings); a
    plain object is ["[object Object]"], unless it has an own [toString]
    property, which a JSON value can only hold as a non-callable value: then
    neither [toString] nor [valueOf] gives a primitive and the conversion
    throws a [TypeError]. *)
Fixpoint to_string (v : jsval) : thrown + jsstring :=
  match v with
  | JUndefined => inr (js "undefined")
  | JNull => inr (js "null")
  | JBool true => inr (js "true")
  | JBool false => inr (js "false")
  | JNumber n => inr (number_to_string n)
  | JString s => inr s
  | JArray l =>
      (fix join (l : list jsval) : thrown + jsstring :=
         match l with
         | [] => inr []
         | x :: r =>
             let! sx := match x with
                        | JUndefined | JNull => inr []
                        | _ => to_string x
                        end in
             match r with
             | [] => inr sx
             | _ :: _ => let! sr := join r in inr (sx ++ [44] ++ sr)
             end
         end) l
  | JObject ps =>
      if has_prop k_toString ps then inl (TTypeError cannot_convert_msg)
      else inr (js "[object Object]")
  end.

(** ** [ImgfansError] *)

Definition k_message := js "message".
Definition k_response := js "response".
Definition k_status := js "status".
Definition k_data := js "data".
Definition k_error_code := js "code".
Definition k_statusCode := js "statusCode".
Definition k_isAxiosError := js "isAxiosError".

(** [error.response] of an axios error, as a value. *)
Definition axios_response_value (a : axios_error) : jsval :=
  match ax_response a with
  | Some r => JObject [(k_status, JNumber (ax_status r)); (k_data, ax_data r)]
  | None => JUndefined
  end.

(** [error.k] on a thrown value, for the properties this code reads
    ([message], [code], [response], [isAxiosError]); reading a property of a
    thrown [undefined] or [null] throws a [TypeError]. *)
Definition prop (e : thrown) (k : jsstring) : thrown + jsval :=
  match e with
  | TAxios a =>
      inr (if jsstring_eqb k k_message then JString (ax_message a)
           else if jsstring_eqb k k_error_code then
             match ax_code a with Some c => JString c | None => JUndefined end
           else if jsstring_eqb k k_response then axios_response_value a
           else if jsstring_eqb k k_isAxiosError then JBool true
           else JUndefined)
  | TTypeError m | TPlain m =>
      inr (if jsstring_eqb k k_message then JString m else JUndefined)
  | TImgfans m st rs _ =>
      inr (if jsstring_eqb k k_message then JString m
           else if jsstring_eqb k k_statusCode then st
           else if jsstring_eqb k k_response then rs
           else JUndefined)
  | TValue v => get v k
  end.

(** [axios.isAxiosError(error)]: an object whose [isAxiosError] is [true]. *)
Definition isAxiosError (e : thrown) : bool :=
  match e with
  | TAxios _ => true
  | TValue (JObject ps) =>
      match lookup_prop k_isAxiosError ps with
      | JBool true => true
      | _ => false
      end
  | _ => false
  end.

(** [new ImgfansError(message)] *)
Definition ImgfansError (m : jsstring) : thrown := TImgfans m JUndefined JUndefined None.

Definition too_large_msg : jsstring :=
  js "The image file is too large. Please try a smaller file.".
Definition unsupported_type_msg : jsstring :=
  js "The file type is not supported. Please upload a valid image file.".
Definition bad_token_msg : jsstring :=
  js "Invalid or missing API token. Please check your credentials.".
Definition no_connection_msg : jsstring :=
  js "Unable to connect to Imgfans server. Please check your internet connection.".
Definition unknown_failure_msg : jsstring := js "Upload failed for unknown reason".
Definition unexpected_msg : jsstring := js "An unexpected error occurred".

(** [ImgfansError.getReadableErrorMessage]: the value of the message
    expression, which need not be a string. *)
Definition getReadableErrorMessage (error : thrown) : thrown + jsval :=
  let! response := prop error k_response in
  if is_number (opt_get response k_status) 413 then inr (JString too_large_msg)
  else if is_number (opt_get response k_status) 415 then inr (JString unsupported_type_msg)
  else if is_number (opt_get response k_status) 401 then inr (JString bad_token_msg)
  else
    let! code := prop error k_error_code in
    if is_string code (js "ECONNREFUSED") then inr (JString no_connection_msg)
    else
      let! message := prop error k_message in
      inr (js_or (opt_get (opt_get response k_data) k_message)
                 (js_or message (JString unknown_failure_msg))).

(** [ImgfansError.fromError(error)], at its call sites
    [throw ImgfansError.fromError(error)]: the value thrown, the new
    [ImgfansError] or the [TypeError] raised while building it (a property
    read of a thrown [undefined] or [null], or the string conversion of the
    message in [super(message)]). *)
Definition fromError (error : thrown) : thrown :=
  match
    (if isAxiosError error then
       let! response := prop error k_response in
       let! message := getReadableErrorMessage error in
       let! m := to_string message in
       inr (TImgfans m (opt_get response k_status) (opt_get response k_data) (Some error))
     else
       let! message := prop error k_message in
       let! m := to_string (js_or message (JString unexpected_msg)) in
       inr (TImgfans m JUndefined JUndefined (Some error)))
  with
  | inl t => t
  | inr t => t
  end.

(** ** Library functions used by [preprocessInput] *)

(** [path.basename] (POSIX): trailing slashes are dropped, then the part
    after the last remaining slash is kept. *)
Fixpoint drop_slashes (r : jsstring) : jsstring :=
  match r with
  | c :: r' => if c =? 47 then drop_slashes r' else r
  | [] => []
  end.

Fixpoint take_segment (r : jsstring) : jsstring :=
  match r with
  | c :: r' => if c =? 47 then [] else c :: take_segment r'
  | [] => []
  end.

Definition basename (p : jsstring) : jsstring :=
  rev (take_segment (drop_slashes (rev p))).

(** The regular expression [/^data:(.+);base64,(.+)$/]: [.] matches any
    code unit but the four line terminators, and the greedy first group
    makes the LAST [";base64,"] that leaves a non-empty second group the
    separator. *)
Definition is_line_terminator (c : Z) : bool :=
  (c =? 10) || (c =? 13) || (c =? 8232) || (c =? 8233).

Definition base64_sep : jsstring := js ";base64,".

Fixpoint split_groups (m r : jsstring) : option (jsstring * jsstring) :=
  match r with
  | [] => None
  | c :: r' =>
      match split_groups (m ++ [c]) r' with
      | Some g => Some g
      | None =>
          match m, skipn 8 r with
          | _ :: _, (_ :: _) as p =>
              if startsWith r base64_sep then Some (m, p) else None
          | _, _ => None
          end
      end
  end.

(** [input.match(/^data:(.+);base64,(.+)$/)]: [Some (matches[1], matches[2])]
    or [None] for [null]. *)
Definition data_uri_match (s : jsstring) : option (jsstring * jsstring) :=
  if startsWith s (js "data:") && forallb (fun c => negb (is_line_terminator c)) s
  then split_groups [] (skipn 5 s)
  else None.

(** [Buffer.from(s, 'base64')], Node's lenient decoder: each UTF-16 code
    unit is first cut to its low byte ([static_cast<uint8_t>]); both the
    standard and the URL-safe alphabet are accepted, other bytes are skipped,
    the first ['='] ends the input, and a trailing group of 2 or 3 sextets
    yields 1 or 2 bytes (a lone trailing sextet yields none). *)
Definition unbase64 (c : Z) : option Z :=
  if (65 <=? c) && (c <=? 90) then Some (c - 65)
  else if (97 <=? c) && (c <=? 122) then Some (c - 71)
  else if (48 <=? c) && (c <=? 57) then Some (c + 4)
  else if (c =? 43) || (c =? 45) then Some 62
  else if (c =? 47) || (c =? 95) then Some 63
  else None.

Fixpoint sextets (s : jsstring) : list Z :=
  match s with
  | [] => []
  | c :: s' =>
      let b := Z.land c 255 in
      match unbase64 b with
      | Some v => v :: sextets s'
      | None => if b =? 61 then [] else sextets s'
      end
  end.

Fixpoint sextets_to_bytes (l : list Z) : list Z :=
  match l with
  | a :: b :: c :: d :: r =>
      (a * 4 + b / 16) :: ((b mod 16) * 16 + c / 4) :: ((c mod 4) * 64 + d)
        :: sextets_to_bytes r
  | [a; b; c] => [a * 4 + b / 16; (b mod 16) * 16 + c / 4]
  | [a; b] => [a * 4 + b / 16]
  | _ => []
  end.

Definition base64_decode (s : jsstring) : list Z := sextets_to_bytes (sextets s).

(** [buf.toString('base64')]: the standard alphabet, padded with ['=']. *)
Definition base64_char (v : Z) : Z :=
  if v <? 26 then v + 65
  else if v <? 52 then v + 71
  else if v <? 62 then v - 4
  else if v =? 62 then 43
  else 47.

Fixpoint base64_encode (bs : list Z) : jsstring :=
  match bs with
  | a :: b :: c :: r =>
      base64_char (a / 4) :: base64_char ((a mod 4) * 16 + b / 16)
        :: base64_char ((b mod 16) * 4 + c / 64) :: base64_char (c mod 64)
        :: base64_encode r
  | [a; b] =>
      [base64_char (a / 4); base64_char ((a mod 4) * 16 + b / 16);
       base64_char ((b mod 16) * 4); 61]
  | [a] => [base64_char (a / 4); base64_char ((a mod 4) * 16); 61; 61]
  | [] => []
  end.

(** ** Input normalisation: [preprocessInput] *)

(** [UploadInput] at run time: a string, a [Buffer] (its bytes), a [Blob],
    a [Readable] (identified by an opaque handle) or any other value. *)
Inductive UploadInput :=
| InString (s : jsstring)
| InBuffer (bytes : list Z)
| InBlob (handle : Z)
| InReadable (handle : Z)
| InOther.

(** [processedFile]: a buffer, [createReadStream(path)], or the caller's
    blob or stream passed through. *)
Inductive ProcessedFile :=
| PBuffer (bytes : list Z)
| PFileStream (path : jsstring)
| PBlob (handle : Z)
| PReadable (handle : Z).

(** The outside world seen by [preprocessInput]: [existsSync],
    [axios.get(url, { responseType: 'arraybuffer' })] (the response bytes or
    the thrown error) and [new URL(url).pathname] ([None] when the
    constructor throws). *)
Record env := mk_env {
  existsSync : jsstring -> bool;
  axios_get : jsstring -> thrown + list Z;
  url_pathname : jsstring -> option jsstring
}.

Definition invalid_input_msg : jsstring :=
  js "Invalid input: must be a valid URL, file path, or base64 string".

Definition unsupported_input_msg : jsstring := js "Unsupported input type".

Definition image_png : jsstring := js "image.png".

(** The body of the [try] block of [preprocessInput]. *)
Definition preprocess_body (E : env) (input : UploadInput)
    (customFilename : option jsstring) : thrown + (ProcessedFile * jsstring) :=
  match input with
  | InString s =>
      if startsWith s (js "http://") || startsWith s (js "https://") then
        match axios_get E s with
        | inl err => inl err
        | inr data =>
            if truthy_str customFilename then inr (PBuffer data, or_str customFilename [])
            else match url_pathname E s with
                 | Some p => inr (PBuffer data, basename p)
                 | None => inl (TTypeError (js "Invalid URL"))
                 end
        end
      else
        match (if startsWith s (js "data:image/") then data_uri_match s else None) with
        | Some (_, payload) => inr (PBuffer (base64_decode payload), or_str customFilename image_png)
        | None =>
            if existsSync E s then inr (PFileStream s, or_str customFilename (basename s))
            else inl (ImgfansError invalid_input_msg)
        end
  | InBuffer b => inr (PBuffer b, or_str customFilename image_png)
  | InBlob h => inr (PBlob h, or_str customFilename image_png)
  | InReadable h => inr (PReadable h, or_str customFilename image_png)
  | InOther => inl (ImgfansError unsupported_input_msg)
  end.

(** [preprocessInput]: every error of the body is rethrown through
    [ImgfansError.fromError]. *)
Definition preprocessInput (E : env) (input : UploadInput)
    (customFilename : option jsstring) : thrown + (ProcessedFile * jsstring) :=
  match preprocess_body E input customFilename with
  | inl err => inl (fromError err)
  | inr r => inr r
  end.

(** ** Response values and the accessors *)

Definition k_file := js "file".
Definition k_references := js "references".
Definition k_code := js "code".
Definition k_direct_link := js "direct_link".
Definition k_download_link := js "download_link".
Definition k_bbcode := js "bbcode".
Definition k_html := js "html".
Definition k_markdown := js "markdown".

Definition invalid_response_msg : jsstring := js "Invalid response format from server".

(** [response?.file?.references] *)
Definition references_of (response : jsval) : jsval :=
  opt_get (opt_get response k_file) k_references.

(** [validateResponse] *)
Definition validateResponse (response : jsval) : thrown + unit :=
  if truthy (references_of response) then inr tt
  else inl (ImgfansError invalid_response_msg).

(** [response.file.references.<kind>.code] *)
Definition reference_code (response : jsval) (kind : jsstring) : thrown + jsval :=
  let! f := get response k_file in
  let! refs := get f k_references in
  let! r := get refs kind in
  get r k_code.

Definition getDirectLink (response : jsval) : thrown + jsval :=
  let! _ := validateResponse response in
  reference_code response k_direct_link.

Definition getMarkdownCode (response : jsval) : thrown + jsval :=
  let! _ := validateResponse response in
  reference_code response k_markdown.

Definition getHtmlCode (response : jsval) : thrown + jsval :=
  let! _ := validateResponse response in
  reference_code response k_html.

(** [getAllReferences]: the object literal evaluates its five property
    values in order. *)
Definition getAllReferences (response : jsval) : thrown + jsval :=
  let! _ := validateResponse response in
  let! f := get response k_file in
  let! refs := get f k_references in
  let! dl := get refs k_direct_link in
  let! directLink := get dl k_code in
  let! dw := get refs k_download_link in
  let! downloadLink := get dw k_code in
  let! bb := get refs k_bbcode in
  let! bbcode := get bb k_code in
  let! ht := get refs k_html in
  let! html := get ht k_code in
  let! md := get refs k_markdown in
  let! markdown := get md k_code in
  inr (JObject [(js "directLink", directLink); (js "downloadLink", downloadLink);
                (js "bbcode", bbcode); (js "html", html); (js "markdown", markdown)]).

(** ** Construction of a client *)

Record ImgfansConfig := mk_config {
  token : option jsstring;
  baseURL : option jsstring
}.

(** The axios instance the constructor creates: [axios.create] only stores
    its configuration, it performs no request. *)
Record ImgfansClient := mk_client {
  client_baseURL : jsstring;
  client_authorization : jsstring
}.

Definition DEFAULT_BASE_URL : jsstring := js "https://imgfans.com/api/v1".

Definition token_required_msg : jsstring := js "API token is required for initialization".

(** [new ImgfansClient(config)] *)
Definition construct (config : ImgfansConfig) : thrown + ImgfansClient :=
  match token config with
  | Some ((_ :: _) as t) =>
      inr (mk_client (or_str (baseURL config) DEFAULT_BASE_URL) (js "Bearer " ++ t))
  | _ => inl (ImgfansError token_required_msg)
  end.

(** ** Uploading: [performUpload] and [upload] *)

(** The request [performUpload] makes: the client's base URL and headers,
    the path ["/upload"], and a multipart body with the one field ["file"]
    holding the processed file under the detected filename. *)
Record upload_request := mk_request {
  req_baseURL : jsstring;
  req_authorization : jsstring;
  req_path : jsstring;
  req_field : jsstring;
  req_file : ProcessedFile;
  req_filename : jsstring
}.

Definition upload_request_of (cl : ImgfansClient) (file : ProcessedFile)
    (filename : jsstring) : upload_request :=
  mk_request (client_baseURL cl) (client_authorization cl) (js "/upload") (js "file")
    file filename.

(** The transport: what [this.client.post] yields before the response
    interceptor, the response body or the raw thrown value (an axios error
    for a non-2xx answer or a network failure). *)
Definition transport := upload_request -> thrown + jsval.

(** [formData.append('file', file, filename)], outside the [try] of
    [performUpload]: form-data hands a non-string, non-buffer value to
    combined-stream, which calls [source.on]; a [Blob] has no [on] method. *)
Definition formData_append (file : ProcessedFile) : thrown + unit :=
  match file with
  | PBlob _ => inl (TTypeError (js "source.on is not a function"))
  | PBuffer _ | PFileStream _ | PReadable _ => inr tt
  end.

(** [performUpload]: the form is built first; then a failure of the request
    passes through the response interceptor
    ([throw ImgfansError.fromError(error)]) and through the [catch] of
    [performUpload] ([throw ImgfansError.fromError(error)]). *)
Definition performUpload (cl : ImgfansClient) (send : transport) (file : ProcessedFile)
    (filename : jsstring) : thrown + jsval :=
  let! _ := formData_append file in
  match send (upload_request_of cl file filename) with
  | inl err => inl (fromError (fromError err))
  | inr data => inr data
  end.

(** [upload]: normalise, then upload; any failure of either step is
    rethrown through [ImgfansError.fromError]. *)
Definition upload (E : env) (cl : ImgfansClient) (send : transport) (input : UploadInput)
    (filename : option jsstring) : thrown + jsval :=
  match
    (let! r := preprocessInput E input filename in
     let '(processedFile, detectedFilename) := r in
     performUpload cl send processedFile detectedFilename)
  with
  | inl err => inl (fromError err)
  | inr data => inr data
  end.

(** ** Names used in the statements *)

(** The URL test of [preprocessInput]. *)
Definition is_url (s : jsstring) : bool :=
  startsWith s (js "http://") || startsWith s (js "https://").

Definition nullish (v : jsval) : bool :=
  match v with
  | JUndefined | JNull => true
  | _ => false
  end.

(** [error.response?.status] and [error.response?.data] of an axios error,
    and [error.response?.data?.message]. *)
Definition response_status (a : axios_error) : option Z :=
  option_map ax_status (ax_response a).

Definition status_value (a : axios_error) : jsval :=
  match ax_response a with
  | Some r => JNumber (ax_status r)
  | None => JUndefined
  end.

Definition response_data (a : axios_error) : jsval :=
  match ax_response a with
  | Some r => ax_data r
  | None => JUndefined
  end.

Definition data_message (a : axios_error) : jsval := opt_get (response_data a) k_message.

Definition code_of_undefined_msg : jsstring :=
  js "Cannot read properties of undefined (reading 'code')".

(** ** Concrete inputs *)

(** No file exists and every fetch fails with a network error. *)
Definition env_offline : env :=
  mk_env (fun _ => false)
         (fun _ => inl (TAxios (mk_axios_error (js "Network Error") None None)))
         (fun _ => None).

(** The files [./photo.jpg] and [./data:image/png;base64,QUJD] exist, every
    fetch returns four bytes and every URL has the path [/img/cat.png]. *)
Definition env_files : env :=
  mk_env (fun p => jsstring_eqb p (js "./photo.jpg")
                   || jsstring_eqb p (js "data:image/png;base64,QUJD"))
         (fun _ => inr [137; 80; 78; 71])
         (fun _ => Some (js "/img/cat.png")).

Definition ref_entry (label code : string) : jsval :=
  JObject [(js "label", JString (js label)); (js "code", JString (js code))].

(** A response whose [file.references] lacks [direct_link]. *)
Definition response_without_direct_link : jsval :=
  JObject [(js "success", JBool true);
           (js "file", JObject [(js "references", JObject
              [(k_download_link, ref_entry "Download" "https://imgfans.com/d/1");
               (k_bbcode, ref_entry "BBCode" "[img]https://imgfans.com/i/1.png[/img]");
               (k_html, ref_entry "HTML" "<img src=x>");
               (k_markdown, ref_entry "Markdown" "![](https://imgfans.com/i/1.png)")])])].

(** A complete response. *)
Definition response_full : jsval :=
  JObject [(js "success", JBool true);
           (js "file", JObject [(js "references", JObject
              [(k_direct_link, ref_entry "Direct" "https://imgfans.com/i/1.png");
               (k_download_link, ref_entry "Download" "https://imgfans.com/d/1");
               (k_bbcode, ref_entry "BBCode" "[img]https://imgfans.com/i/1.png[/img]");
               (k_html, ref_entry "HTML" "<img src=x>");
               (k_markdown, ref_entry "Markdown" "![](https://imgfans.com/i/1.png)")])])].

(** An axios timeout: no response, code [ECONNABORTED]. *)
Definition timeout_error : axios_error :=
  mk_axios_error (js "timeout of 5000ms exceeded") (Some (js "ECONNABORTED")) None.

(** An axios error for an HTTP 413 answer with a JSON body. *)
Definition too_large_error : axios_error :=
  mk_axios_error (js "Request failed with status code 413") None
    (Some (mk_axios_response 413 (JObject [(k_message, JString (js "Payload Too Large"))]))).

(** A client built with the default base URL, and two transports: one
    answering every request with [response_full], one with HTTP 413. *)
Definition demo_client : ImgfansClient :=
  mk_client DEFAULT_BASE_URL (js "Bearer test-token").


Definition send_413 : transport := fun _ => inl (TAxios too_large_error).

(** An axios error for an HTTP 500 answer whose [message] is a number. *)
Definition numeric_message_error : axios_error :=
  mk_axios_error (js "Request failed with status code 500") None
    (Some (mk_axios_response 500 (JObject [(k_message, JNumber 5)]))).

(** An axios error for an HTTP 500 answer whose [message] is an object with
    a [toString] property. *)
Definition unconvertible_message_error : axios_error :=
  mk_axios_error (js "Request failed with status code 500") None
    (Some (mk_axios_response 500
             (JObject [(k_message, JObject [(k_toString, JNumber 1)])]))).

(** An axios error for an HTTP 500 answer whose [message] is an empty array. *)
Definition empty_array_message_error : axios_error :=
  mk_axios_error (js "Request failed with status code 500") None
    (Some (mk_axios_response 500 (JObject [(k_message, JArray [])]))).

(** A transport answering every request with that error. *)
Definition send_500_empty_array : transport := fun _ => inl (TAxios empty_array_message_error).

(** The message of the [TypeError] form-data raises on a [Blob]. *)
Definition source_on_msg : jsstring := js "source.on is not a function".

(** * Proofs *)

(** ** Base64: decoding inverts Node's encoder on bytes *)

Definition is_byte (b : Z) : Prop := 0 <= b < 256.

Ltac zcmp :=
  repeat match goal with
  | |- context [Z.ltb ?a ?b] => destruct (Z.ltb_spec a b)
  | |- context [Z.leb ?a ?b] => destruct (Z.leb_spec a b)
  | |- context [Z.eqb ?a ?b] => destruct (Z.eqb_spec a b)
  end; simpl.

Ltac zrange := intros; Z.div_mod_to_equations; lia.

Lemma unbase64_base64_char v : 0 <= v < 64 -> unbase64 (base64_char v) = Some v.
Proof.
  intros H. unfold base64_char, unbase64. zcmp; try lia; f_equal; lia.
Qed.

Lemma unbase64_pad : unbase64 61 = None.
Proof. reflexivity. Qed.

Lemma pack_div x y k : 0 <= y < k -> (x * k + y) / k = x.
Proof. intros H. symmetry. apply (Z.div_unique _ _ _ y); lia. Qed.

Lemma pack_mod x y k : 0 <= y < k -> (x * k + y) mod k = y.
Proof. intros H. symmetry. apply (Z.mod_unique _ _ x); lia. Qed.

Lemma sextet0_range a : is_byte a -> 0 <= a / 4 < 64.
Proof. unfold is_byte. zrange. Qed.

Lemma sextet1_range a b : is_byte a -> is_byte b -> 0 <= (a mod 4) * 16 + b / 16 < 64.
Proof. unfold is_byte. zrange. Qed.

Lemma sextet2_range b c : is_byte b -> is_byte c -> 0 <= (b mod 16) * 4 + c / 64 < 64.
Proof. unfold is_byte. zrange. Qed.

Lemma sextet3_range c : is_byte c -> 0 <= c mod 64 < 64.
Proof. unfold is_byte. zrange. Qed.

Lemma hi_nibble_range b : is_byte b -> 0 <= b / 16 < 16.
Proof. unfold is_byte. zrange. Qed.

Lemma hi_crumb_range c : is_byte c -> 0 <= c / 64 < 4.
Proof. unfold is_byte. zrange. Qed.

Lemma byte0_back a b : is_byte a -> is_byte b ->
  (a / 4) * 4 + ((a mod 4) * 16 + b / 16) / 16 = a.
Proof.
  intros Ha Hb. rewrite pack_div by (apply hi_nibble_range; exact Hb).
  pose proof (Z.div_mod a 4). lia.
Qed.

Lemma byte1_back a b c : is_byte b -> is_byte c ->
  (((a mod 4) * 16 + b / 16) mod 16) * 16 + ((b mod 16) * 4 + c / 64) / 4 = b.
Proof.
  intros Hb Hc. rewrite pack_mod by (apply hi_nibble_range; exact Hb).
  rewrite pack_div by (apply hi_crumb_range; exact Hc).
  pose proof (Z.div_mod b 16). lia.
Qed.

Lemma byte2_back b c : is_byte c ->
  (((b mod 16) * 4 + c / 64) mod 4) * 64 + c mod 64 = c.
Proof.
  intros Hc. rewrite pack_mod by (apply hi_crumb_range; exact Hc).
  pose proof (Z.div_mod c 64). lia.
Qed.

Lemma byte1_back_last a b : is_byte b ->
  (((a mod 4) * 16 + b / 16) mod 16) * 16 + ((b mod 16) * 4) / 4 = b.
Proof.
  intros Hb. rewrite pack_mod by (apply hi_nibble_range; exact Hb).
  rewrite Z.div_mul by lia. pose proof (Z.div_mod b 16). lia.
Qed.

Lemma byte0_back_last a : is_byte a -> (a / 4) * 4 + ((a mod 4) * 16) / 16 = a.
Proof.
  intros Ha. rewrite Z.div_mul by lia. pose proof (Z.div_mod a 4). lia.
Qed.

(** Induction over a list three elements at a time, as the encoder walks it. *)
Definition list_ind3 (P : list Z -> Prop) (H0 : P [])
    (H1 : forall a, P [a]) (H2 : forall a b, P [a; b])
    (H3 : forall a b c r, P r -> P (a :: b :: c :: r)) : forall l, P l :=
  fix F l :=
    match l with
    | [] => H0
    | [a] => H1 a
    | [a; b] => H2 a b
    | a :: b :: c :: r => H3 a b c r (F r)
    end.

Lemma base64_char_range v : 0 <= v < 64 -> 0 <= base64_char v < 256.
Proof. intros H. unfold base64_char. zcmp; lia. Qed.

Lemma low_byte_small x : 0 <= x < 256 -> Z.land x 255 = x.
Proof.
  intros H. change 255 with (Z.ones 8). rewrite Z.land_ones by lia.
  apply Z.mod_small. exact H.
Qed.

Lemma sextets_char v s : 0 <= v < 64 ->
  sextets (base64_char v :: s) = v :: sextets s.
Proof.
  intros H. cbn [sextets].
  rewrite low_byte_small by (apply base64_char_range; exact H).
  rewrite unbase64_base64_char by exact H. reflexivity.
Qed.

Lemma base64_decode_encode bs : Forall is_byte bs -> base64_decode (base64_encode bs) = bs.
Proof.
  unfold base64_decode. induction bs as [| a | a b | a b c r IH] using list_ind3;
    intros Hall; [reflexivity | ..].
  - inversion Hall as [| ? ? Ha _]; subst.
    cbn [base64_encode].
    rewrite sextets_char by (apply sextet0_range; exact Ha).
    rewrite sextets_char by (unfold is_byte in Ha; zrange).
    cbn. now rewrite byte0_back_last.
  - inversion Hall as [| ? ? Ha Hr]; inversion Hr as [| ? ? Hb _]; subst.
    cbn [base64_encode].
    rewrite sextets_char by (apply sextet0_range; exact Ha).
    rewrite sextets_char by (apply sextet1_range; assumption).
    rewrite sextets_char by (unfold is_byte in Hb; zrange).
    cbn. rewrite byte0_back by assumption. now rewrite byte1_back_last.
  - inversion Hall as [| ? ? Ha Hr]; inversion Hr as [| ? ? Hb Hr'];
      inversion Hr' as [| ? ? Hc Hrest]; subst.
    cbn [base64_encode].
    rewrite sextets_char by (apply sextet0_range; exact Ha).
    rewrite sextets_char by (apply sextet1_range; assumption).
    rewrite sextets_char by (apply sextet2_range; assumption).
    rewrite sextets_char by (apply sextet3_range; exact Hc).
    cbn [sextets_to_bytes].
    rewrite byte0_back, byte1_back, byte2_back by assumption.
    now rewrite IH.
Qed.

(** ** Input classification *)

Lemma data_image_not_url s : startsWith s (js "data:image/") = true -> is_url s = false.
Proof.
  destruct s as [| c s]; intros H; [discriminate H |].
  cbn in H. apply andb_prop in H as [H _]. apply Z.eqb_eq in H. subst c.
  reflexivity.
Qed.

(** The four branches of [preprocessInput] on a string. *)
Lemma preprocess_string_branches (E : env) (s : jsstring) (h : option jsstring) :
  (is_url s = true ->
     (forall E', axios_get E' = axios_get E -> url_pathname E' = url_pathname E ->
        preprocessInput E' (InString s) h = preprocessInput E (InString s) h)
     /\ (forall err, axios_get E s = inl err ->
           preprocessInput E (InString s) h = inl (fromError err))
     /\ (forall data, axios_get E s = inr data ->
           (exists fn, preprocessInput E (InString s) h = inr (PBuffer data, fn))
           \/ preprocessInput E (InString s) h
              = inl (fromError (TTypeError (js "Invalid URL")))))
  /\ (forall m p, is_url s = false -> startsWith s (js "data:image/") = true ->
        data_uri_match s = Some (m, p) ->
        preprocessInput E (InString s) h = inr (PBuffer (base64_decode p), or_str h image_png))
  /\ (is_url s = false ->
      (startsWith s (js "data:image/") = false \/ data_uri_match s = None) ->
      existsSync E s = true ->
      preprocessInput E (InString s) h = inr (PFileStream s, or_str h (basename s)))
  /\ (is_url s = false ->
      (startsWith s (js "data:image/") = false \/ data_uri_match s = None) ->
      existsSync E s = false ->
      preprocessInput E (InString s) h = inl (fromError (ImgfansError invalid_input_msg))).
Proof.
  unfold preprocessInput, preprocess_body. fold (is_url s).
  split; [| split; [| split]].
  - intros Hurl. rewrite Hurl. split; [| split].
    + intros E' Hget Hpath. rewrite Hget, Hpath. reflexivity.
    + intros err Herr. rewrite Herr. reflexivity.
    + intros data Hdata. rewrite Hdata.
      destruct (truthy_str h); [left; eauto |].
      destruct (url_pathname E s); [left; eauto | right; reflexivity].
  - intros m p Hurl Hpre Hm. rewrite Hurl, Hpre, Hm. reflexivity.
  - intros Hurl Hnot Hex. rewrite Hurl, Hex.
    destruct Hnot as [Hn | Hn]; rewrite Hn; [reflexivity |].
    destruct (startsWith s (js "data:image/")); reflexivity.
  - intros Hurl Hnot Hex. rewrite Hurl, Hex.
    destruct Hnot as [Hn | Hn]; rewrite Hn; [reflexivity |].
    destruct (startsWith s (js "data:image/")); reflexivity.
Qed.

(** Claim C1: a string is classified in the fixed order URL, then
    [data:image/] base64 data URI, then existing local file, then failure
    with the invalid-input error.  A URL string is fetched: its result
    depends on the fetch and on the URL parser only, never on the file
    system, and a failed fetch is the failure of the call. *)
Theorem preprocess_classification (E : env) (s : jsstring) (h : option jsstring) :
  (is_url s = true ->
     (forall E', axios_get E' = axios_get E -> url_pathname E' = url_pathname E ->
        preprocessInput E' (InString s) h = preprocessInput E (InString s) h)
     /\ (forall err, axios_get E s = inl err ->
           preprocessInput E (InString s) h = inl (fromError err))
     /\ (forall data, axios_get E s = inr data ->
           (exists fn, preprocessInput E (InString s) h = inr (PBuffer data, fn))
           \/ preprocessInput E (InString s) h
              = inl (fromError (TTypeError (js "Invalid URL")))))
  /\ (forall m p, is_url s = false -> startsWith s (js "data:image/") = true ->
        data_uri_match s = Some (m, p) ->
        preprocessInput E (InString s) h = inr (PBuffer (base64_decode p), or_str h image_png))
  /\ (is_url s = false ->
      (startsWith s (js "data:image/") = false \/ data_uri_match s = None) ->
      existsSync E s = true ->
      preprocessInput E (InString s) h = inr (PFileStream s, or_str h (basename s)))
  /\ (is_url s = false ->
      (startsWith s (js "data:image/") = false \/ data_uri_match s = None) ->
      existsSync E s = false ->
      preprocessInput E (InString s) h = inl (fromError (ImgfansError invalid_input_msg))).
Proof. exact (preprocess_string_branches E s h). Qed.

Lemma preprocess_classification_witness :
  is_url (js "https://imgfans.com/cat.png") = true
  /\ preprocessInput env_offline (InString (js "https://imgfans.com/cat.png")) None
     = inl (fromError (TAxios (mk_axios_error (js "Network Error") None None)))
  /\ preprocessInput env_files (InString (js "data:image/png;base64,QUJD")) None
     = inr (PBuffer (base64_decode (js "QUJD")), or_str None image_png)
  /\ preprocessInput env_files (InString (js "./photo.jpg")) None
     = inr (PFileStream (js "./photo.jpg"), or_str None (basename (js "./photo.jpg")))
  /\ preprocessInput env_offline (InString (js "./photo.jpg")) None
     = inl (fromError (ImgfansError invalid_input_msg)).
Proof.
  split; [reflexivity |]. split; [| split; [| split]].
  - apply (proj1 (proj2 (proj1 (preprocess_classification env_offline
             (js "https://imgfans.com/cat.png") None) eq_refl))).
    reflexivity.
  - apply (proj1 (proj2 (preprocess_classification env_files _ None)) (js "image/png"));
      reflexivity.
  - apply (proj1 (proj2 (proj2 (preprocess_classification env_files _ None))));
      [reflexivity | left; reflexivity | reflexivity].
  - apply (proj2 (proj2 (proj2 (preprocess_classification env_offline _ None))));
      [reflexivity | left; reflexivity | reflexivity].
Defined.

Lemma data_prefix_not_url s : startsWith s (js "data:") = true -> is_url s = false.
Proof.
  destruct s as [| c s]; intros H; [discriminate H |].
  cbn in H. apply andb_prop in H as [H _]. apply Z.eqb_eq in H. subst c.
  reflexivity.
Qed.

(** Claim C2, as the code has it: a string that starts with [data:image/] and
    matches [/^data:(.+);base64,(.+)$/] is decoded from its second group,
    and its filename is the hint when that is a non-empty string, else
    ["image.png"].  A data URI that does not start with [data:image/] (any
    other mime type) is never decoded: it goes to the local-file check, and
    fails with the invalid-input error when no such file exists. *)
Theorem preprocess_data_image_uri (E : env) (s : jsstring) (h : option jsstring) :
  (forall m p,
     startsWith s (js "data:image/") = true ->
     data_uri_match s = Some (m, p) ->
     preprocessInput E (InString s) h
     = inr (PBuffer (base64_decode p),
            match h with Some ((_ :: _) as n) => n | _ => image_png end))
  /\ (startsWith s (js "data:") = true ->
      startsWith s (js "data:image/") = false ->
      preprocessInput E (InString s) h
      = if existsSync E s then inr (PFileStream s, or_str h (basename s))
        else inl (fromError (ImgfansError invalid_input_msg))).
Proof.
  split.
  - intros m p Hpre Hm.
    rewrite (proj1 (proj2 (preprocess_string_branches E s h)) m p
               (data_image_not_url s Hpre) Hpre Hm).
    destruct h as [[| c n] |]; reflexivity.
  - intros Hd Hni. pose proof (data_prefix_not_url s Hd) as Hurl.
    destruct (existsSync E s) eqn:Hex.
    + exact (proj1 (proj2 (proj2 (preprocess_string_branches E s h))) Hurl (or_introl Hni) Hex).
    + exact (proj2 (proj2 (proj2 (preprocess_string_branches E s h))) Hurl (or_introl Hni) Hex).
Qed.

Lemma preprocess_data_image_uri_witness :
  startsWith (js "data:image/png;base64,QUJD") (js "data:image/") = true
  /\ data_uri_match (js "data:image/png;base64,QUJD") = Some (js "image/png", js "QUJD")
  /\ preprocessInput env_offline (InString (js "data:image/png;base64,QUJD")) None
     = inr (PBuffer (base64_decode (js "QUJD")), image_png)
  /\ preprocessInput env_offline (InString (js "data:text/plain;base64,QUJD")) None
     = inl (fromError (ImgfansError invalid_input_msg)).
Proof.
  split; [reflexivity | split; [reflexivity | split]].
  - apply (proj1 (preprocess_data_image_uri env_offline _ None) (js "image/png"));
      reflexivity.
  - apply (proj2 (preprocess_data_image_uri env_offline
                    (js "data:text/plain;base64,QUJD") None)); reflexivity.
Defined.

(** Claim C2 fails for other mime types: ["data:text/plain;base64,QUJD"]
    matches the pattern but is not decoded; with no such file the call
    fails with the invalid-input error. *)
Lemma data_uri_other_mime_not_decoded :
  data_uri_match (js "data:text/plain;base64,QUJD") = Some (js "text/plain", js "QUJD")
  /\ preprocessInput env_offline (InString (js "data:text/plain;base64,QUJD")) None
     = inl (fromError (ImgfansError invalid_input_msg)).
Proof. split; reflexivity. Qed.

(** Claim C10: a string that starts with [data:image/] but does not match
    the data-URI pattern is not decoded: it goes on to the file check, and
    fails with the invalid-input error when no such file exists. *)
Theorem data_image_unmatched_falls_through (E : env) (s : jsstring) (h : option jsstring) :
  startsWith s (js "data:image/") = true ->
  data_uri_match s = None ->
  preprocessInput E (InString s) h
  = if existsSync E s then inr (PFileStream s, or_str h (basename s))
    else inl (fromError (ImgfansError invalid_input_msg)).
Proof.
  intros Hpre Hm. pose proof (data_image_not_url s Hpre) as Hurl.
  destruct (existsSync E s) eqn:Hex.
  - exact (proj1 (proj2 (proj2 (preprocess_string_branches E s h))) Hurl (or_intror Hm) Hex).
  - exact (proj2 (proj2 (proj2 (preprocess_string_branches E s h))) Hurl (or_intror Hm) Hex).
Qed.

Lemma data_image_unmatched_falls_through_witness :
  startsWith (js "data:image/png,rawbytes") (js "data:image/") = true
  /\ data_uri_match (js "data:image/png,rawbytes") = None
  /\ preprocessInput env_offline (InString (js "data:image/png,rawbytes")) None
     = inl (fromError (ImgfansError invalid_input_msg)).
Proof.
  split; [reflexivity | split; [reflexivity |]].
  apply (data_image_unmatched_falls_through env_offline _ None); reflexivity.
Defined.

(** ** Filenames *)

(** Claim C7, as the code has it.  With no hint, or the empty string as
    hint (both falsy for [||]): a string that is neither a URL nor a matching
    [data:image/] URI and names an existing file gets the path's base name;
    a URL whose fetch succeeds gets the base name of its parsed path; a
    buffer gets ["image.png"].  A non-empty hint is the filename of every
    successful normalisation. *)
Theorem preprocess_filename (E : env) :
  (forall s h, is_url s = false ->
     (startsWith s (js "data:image/") = false \/ data_uri_match s = None) ->
     existsSync E s = true -> truthy_str h = false ->
     preprocessInput E (InString s) h = inr (PFileStream s, basename s))
  /\ (forall s h data p, is_url s = true -> axios_get E s = inr data ->
        url_pathname E s = Some p -> truthy_str h = false ->
        preprocessInput E (InString s) h = inr (PBuffer data, basename p))
  /\ (forall b h, truthy_str h = false ->
        preprocessInput E (InBuffer b) h = inr (PBuffer b, image_png))
  /\ (forall input n pf fn, n <> [] ->
        preprocessInput E input (Some n) = inr (pf, fn) -> fn = n).
Proof.
  split; [| split; [| split]].
  - intros s h Hurl Hnot Hex Hh.
    rewrite (proj1 (proj2 (proj2 (preprocess_string_branches E s h))) Hurl Hnot Hex).
    destruct h as [[| c n] |]; [reflexivity | discriminate Hh | reflexivity].
  - intros s h data p Hurl Hget Hp Hh.
    unfold preprocessInput, preprocess_body. fold (is_url s).
    rewrite Hurl, Hget, Hh, Hp. reflexivity.
  - intros b h Hh. destruct h as [[| c n] |]; [reflexivity | discriminate Hh | reflexivity].
  - intros input n pf fn Hn. destruct n as [| c n]; [contradiction |].
    unfold preprocessInput, preprocess_body.
    destruct input as [s | b | hd | hd |]; cbn [truthy_str or_str];
      try (intros H; inversion H; reflexivity).
    destruct (startsWith s (js "http://") || startsWith s (js "https://")).
    + destruct (axios_get E s); cbn [or_str]; intros H; inversion H; reflexivity.
    + destruct (if startsWith s (js "data:image/") then data_uri_match s else None)
        as [[? ?] |].
      * intros H; inversion H; reflexivity.
      * destruct (existsSync E s); intros H; inversion H; reflexivity.
Qed.

Lemma preprocess_filename_witness :
  preprocessInput env_files (InString (js "./photo.jpg")) None
    = inr (PFileStream (js "./photo.jpg"), basename (js "./photo.jpg"))
  /\ preprocessInput env_files (InString (js "https://imgfans.com/img/cat.png")) (Some [])
    = inr (PBuffer [137; 80; 78; 71], basename (js "/img/cat.png"))
  /\ preprocessInput env_files (InBuffer [1; 2]) None = inr (PBuffer [1; 2], image_png)
  /\ js "custom.jpg" = js "custom.jpg".
Proof.
  split; [| split; [| split]].
  - apply (proj1 (preprocess_filename env_files)); [reflexivity | left; reflexivity | ..];
      reflexivity.
  - apply (proj1 (proj2 (preprocess_filename env_files))); reflexivity.
  - apply (proj1 (proj2 (proj2 (preprocess_filename env_files)))); reflexivity.
  - apply (proj2 (proj2 (proj2 (preprocess_filename env_files)))
             (InBuffer [1; 2]) (js "custom.jpg") (PBuffer [1; 2])).
    + discriminate.
    + reflexivity.
Defined.

(** Claim C7 fails as stated: the empty string given as override is
    ignored, and a file whose name is a [data:image/] URI is decoded, not
    opened, so its filename is not its base name. *)
Lemma filename_override_and_priority :
  preprocessInput env_offline (InBuffer [1; 2; 3]) (Some [])
    = inr (PBuffer [1; 2; 3], image_png)
  /\ existsSync env_files (js "data:image/png;base64,QUJD") = true
  /\ preprocessInput env_files (InString (js "data:image/png;base64,QUJD")) None
     = inr (PBuffer [65; 66; 67], image_png)
  /\ basename (js "data:image/png;base64,QUJD") = js "png;base64,QUJD"
  /\ js "png;base64,QUJD" <> image_png.
Proof.
  split; [reflexivity |]. split; [reflexivity |]. split; [vm_compute; reflexivity |].
  split; [reflexivity | discriminate].
Qed.

(** ** Base64 round trip *)

(** Claim C9, as the code has it: a payload that is canonical base64 (the
    padded standard encoding of some bytes) decodes to those bytes and
    re-encodes to itself. *)
Theorem data_uri_payload_roundtrip (s m p : jsstring) (bs : list Z) :
  data_uri_match s = Some (m, p) ->
  Forall is_byte bs ->
  p = base64_encode bs ->
  base64_decode p = bs /\ base64_encode (base64_decode p) = p.
Proof.
  intros _ Hb Hp. subst p. rewrite base64_decode_encode by exact Hb.
  split; reflexivity.
Qed.

Lemma data_uri_payload_roundtrip_witness :
  data_uri_match (js "data:image/png;base64,QUJD") = Some (js "image/png", js "QUJD")
  /\ base64_decode (js "QUJD") = [65; 66; 67]
  /\ base64_encode (base64_decode (js "QUJD")) = js "QUJD".
Proof.
  split; [reflexivity |].
  apply (data_uri_payload_roundtrip (js "data:image/png;base64,QUJD") (js "image/png")
           (js "QUJD") [65; 66; 67]).
  - reflexivity.
  - repeat constructor; unfold is_byte; lia.
  - reflexivity.
Defined.

(** Claim C9 fails for non-canonical payloads: ["QUJ"] (padding left out)
    decodes to the two bytes [A B], which re-encode as ["QUI="]. *)
Lemma data_uri_payload_not_canonical :
  data_uri_match (js "data:image/png;base64,QUJ") = Some (js "image/png", js "QUJ")
  /\ base64_decode (js "QUJ") = [65; 66]
  /\ base64_encode (base64_decode (js "QUJ")) = js "QUI="
  /\ js "QUI=" <> js "QUJ".
Proof. split; [reflexivity | split; [reflexivity | split; [reflexivity | discriminate]]]. Qed.

(** ** Response accessors *)

Lemma bind_inr {A B} (a : A) (f : A -> thrown + B) : bind (inr a) f = f a.
Proof. reflexivity. Qed.

Lemma get_object ps k : get (JObject ps) k = inr (lookup_prop k ps).
Proof. reflexivity. Qed.

Lemma get_present v k : nullish v = false -> get v k = inr (opt_get v k).
Proof. destruct v; simpl; congruence. Qed.

Lemma get_inr_opt v k x : get v k = inr x -> x = opt_get v k.
Proof. destruct v; simpl; congruence. Qed.

Lemma get_inr_present v k x : get v k = inr x -> nullish v = false.
Proof. destruct v; simpl; congruence. Qed.

Lemma get_inl_type_error v k e : get v k = inl e -> exists m, e = TTypeError m.
Proof. destruct v; simpl; intros H; inversion H; eauto. Qed.

Lemma opt_get_nullish v k : nullish v = true -> opt_get v k = JUndefined.
Proof. destruct v; simpl; congruence. Qed.

Lemma truthy_present v : truthy v = true -> nullish v = false.
Proof. destruct v; simpl; congruence. Qed.

(** When [response?.file?.references] is not nullish, the plain property
    reads [response.file.references] reach the same value. *)
Lemma references_path r :
  nullish (references_of r) = false ->
  exists f, get r k_file = inr f /\ get f k_references = inr (references_of r).
Proof.
  unfold references_of. intros H.
  destruct (nullish r) eqn:Hr.
  - rewrite (opt_get_nullish r) in H by exact Hr. discriminate H.
  - exists (opt_get r k_file). split; [apply get_present; exact Hr |].
    apply get_present. destruct (nullish (opt_get r k_file)) eqn:Hf; [| reflexivity].
    rewrite (opt_get_nullish _ _ Hf) in H. discriminate H.
Qed.

Lemma reference_code_path r kind :
  nullish (references_of r) = false ->
  reference_code r kind = bind (get (references_of r) kind) (fun x => get x k_code).
Proof.
  intros H. destruct (references_path r H) as [f [Hf Hrefs]].
  unfold reference_code. rewrite Hf, bind_inr, Hrefs, bind_inr. reflexivity.
Qed.

(** Walks a chain of [let!] property reads, one read at a time. *)
Ltac walk_reads :=
  repeat match goal with
  | |- context [bind (get ?v ?k) _] =>
      let Eg := fresh "Eg" in
      destruct (get v k) eqn:Eg; cbn [bind]
  end.

Lemma getAllReferences_error r e :
  truthy (references_of r) = true -> getAllReferences r = inl e -> exists m, e = TTypeError m.
Proof.
  intros Ht. unfold getAllReferences, validateResponse. rewrite Ht. cbn [bind].
  walk_reads; intros H; inversion H; subst; eauto using get_inl_type_error.
Qed.

Lemma getAllReferences_reads r v :
  getAllReferences r = inr v ->
  forall kind, In kind [k_direct_link; k_download_link; k_bbcode; k_html; k_markdown] ->
  nullish (opt_get (references_of r) kind) = false.
Proof.
  unfold getAllReferences, validateResponse.
  destruct (truthy (references_of r)); cbn [bind]; [| discriminate].
  walk_reads; try discriminate. intros _.
  repeat match goal with
  | H : get _ _ = inr _ |- _ =>
      pose proof (get_inr_present _ _ _ H); apply get_inr_opt in H; subst
  end.
  unfold references_of.
  intros kind Hin; simpl in Hin.
  repeat (destruct Hin as [Hin | Hin]; [subst kind; assumption |]). contradiction.
Qed.

(** Claim C3, as the code has it: [validateResponse] checks only
    [file.references]; when that is present but a reference kind is absent,
    each accessor reading that kind fails with a [TypeError] raised by the
    property read, not with an [ImgfansError]. *)
Theorem missing_reference_kind_type_error (r : jsval) :
  truthy (references_of r) = true ->
  (opt_get (references_of r) k_direct_link = JUndefined ->
     getDirectLink r = inl (TTypeError code_of_undefined_msg))
  /\ (opt_get (references_of r) k_markdown = JUndefined ->
     getMarkdownCode r = inl (TTypeError code_of_undefined_msg))
  /\ (opt_get (references_of r) k_html = JUndefined ->
     getHtmlCode r = inl (TTypeError code_of_undefined_msg))
  /\ (forall kind, In kind [k_direct_link; k_download_link; k_bbcode; k_html; k_markdown] ->
       opt_get (references_of r) kind = JUndefined ->
       exists m, getAllReferences r = inl (TTypeError m)).
Proof.
  intros Ht. pose proof (truthy_present _ Ht) as Hp.
  assert (Hone : forall kind, opt_get (references_of r) kind = JUndefined ->
            bind (validateResponse r) (fun _ => reference_code r kind)
            = inl (TTypeError code_of_undefined_msg)).
  { intros kind Hk. unfold validateResponse. rewrite Ht, bind_inr.
    rewrite reference_code_path by exact Hp.
    rewrite get_present by exact Hp. rewrite Hk, bind_inr. reflexivity. }
  split; [| split; [| split]].
  - exact (Hone k_direct_link).
  - exact (Hone k_markdown).
  - exact (Hone k_html).
  - intros kind Hin Hk. destruct (getAllReferences r) as [e | v] eqn:Hall.
    + destruct (getAllReferences_error r e Ht Hall) as [m Hm]. subst e. eauto.
    + pose proof (getAllReferences_reads r v Hall kind Hin) as Hn.
      rewrite Hk in Hn. discriminate Hn.
Qed.

Lemma missing_reference_kind_type_error_witness :
  getDirectLink response_without_direct_link = inl (TTypeError code_of_undefined_msg)
  /\ exists m, getAllReferences response_without_direct_link = inl (TTypeError m).
Proof.
  pose proof (missing_reference_kind_type_error response_without_direct_link eq_refl)
    as [Hd [_ [_ Hall]]].
  split.
  - apply Hd. reflexivity.
  - apply (Hall k_direct_link); [left; reflexivity | reflexivity].
Defined.

(** Claim C3 fails as stated: with [direct_link] absent, [getDirectLink]
    fails with a [TypeError], which is not an [ImgfansError]. *)
Lemma missing_direct_link_not_imgfans_error :
  getDirectLink response_without_direct_link = inl (TTypeError code_of_undefined_msg)
  /\ forall m st rs c,
       getDirectLink response_without_direct_link <> inl (TImgfans m st rs c).
Proof.
  assert (H : getDirectLink response_without_direct_link
              = inl (TTypeError code_of_undefined_msg)) by reflexivity.
  split; [exact H |]. intros m st rs c. rewrite H. discriminate.
Qed.

(** Claim C4: on a response whose [file.references] holds the five kinds,
    [getAllReferences] returns exactly the keys directLink, downloadLink,
    bbcode, html and markdown, bound to the [code] of direct_link,
    download_link, bbcode, html and markdown. *)
Theorem getAllReferences_wellformed (r : jsval) (ps : list (jsstring * jsval)) :
  references_of r = JObject ps ->
  nullish (lookup_prop k_direct_link ps) = false ->
  nullish (lookup_prop k_download_link ps) = false ->
  nullish (lookup_prop k_bbcode ps) = false ->
  nullish (lookup_prop k_html ps) = false ->
  nullish (lookup_prop k_markdown ps) = false ->
  getAllReferences r
  = inr (JObject [(js "directLink", opt_get (lookup_prop k_direct_link ps) k_code);
                  (js "downloadLink", opt_get (lookup_prop k_download_link ps) k_code);
                  (js "bbcode", opt_get (lookup_prop k_bbcode ps) k_code);
                  (js "html", opt_get (lookup_prop k_html ps) k_code);
                  (js "markdown", opt_get (lookup_prop k_markdown ps) k_code)]).
Proof.
  intros Hrefs Hdl Hdw Hbb Hht Hmd.
  assert (Hp : nullish (references_of r) = false) by (rewrite Hrefs; reflexivity).
  destruct (references_path r Hp) as [f [Hf Hr]].
  unfold getAllReferences, validateResponse.
  rewrite Hrefs. cbn [truthy].
  rewrite bind_inr, Hf, bind_inr, Hr, Hrefs, bind_inr.
  rewrite get_object, bind_inr, (get_present _ _ Hdl), bind_inr.
  rewrite get_object, bind_inr, (get_present _ _ Hdw), bind_inr.
  rewrite get_object, bind_inr, (get_present _ _ Hbb), bind_inr.
  rewrite get_object, bind_inr, (get_present _ _ Hht), bind_inr.
  rewrite get_object, bind_inr, (get_present _ _ Hmd), bind_inr.
  reflexivity.
Qed.

Lemma getAllReferences_wellformed_witness :
  getAllReferences response_full
  = inr (JObject [(js "directLink", JString (js "https://imgfans.com/i/1.png"));
                  (js "downloadLink", JString (js "https://imgfans.com/d/1"));
                  (js "bbcode", JString (js "[img]https://imgfans.com/i/1.png[/img]"));
                  (js "html", JString (js "<img src=x>"));
                  (js "markdown", JString (js "![](https://imgfans.com/i/1.png)"))]).
Proof.
  refine (getAllReferences_wellformed response_full _ eq_refl _ _ _ _ _);
    reflexivity.
Defined.

(** Claim C5: on a response without [file.references] (the response, its
    [file] or its [references] undefined or null) every accessor fails with
    the invalid-response [ImgfansError]. *)
Theorem missing_references_invalid_shape (r : jsval) :
  references_of r = JUndefined \/ references_of r = JNull ->
  getDirectLink r = inl (ImgfansError invalid_response_msg)
  /\ getMarkdownCode r = inl (ImgfansError invalid_response_msg)
  /\ getHtmlCode r = inl (ImgfansError invalid_response_msg)
  /\ getAllReferences r = inl (ImgfansError invalid_response_msg).
Proof.
  intros H.
  assert (Hv : validateResponse r = inl (ImgfansError invalid_response_msg)).
  { unfold validateResponse. destruct H as [H | H]; rewrite H; reflexivity. }
  unfold getDirectLink, getMarkdownCode, getHtmlCode, getAllReferences.
  rewrite Hv. repeat split.
Qed.

Lemma missing_references_invalid_shape_witness :
  getAllReferences JNull = inl (ImgfansError invalid_response_msg)
  /\ getDirectLink (JObject [(k_file, JNull)]) = inl (ImgfansError invalid_response_msg).
Proof.
  split.
  - apply (missing_references_invalid_shape JNull). left; reflexivity.
  - apply (missing_references_invalid_shape (JObject [(k_file, JNull)])). left; reflexivity.
Defined.

(** ** Error mapping *)

Lemma prop_axios_response a : prop (TAxios a) k_response = inr (axios_response_value a).
Proof. reflexivity. Qed.

Lemma prop_axios_code a :
  prop (TAxios a) k_error_code
  = inr (match ax_code a with Some c => JString c | None => JUndefined end).
Proof. reflexivity. Qed.

Lemma prop_axios_message a : prop (TAxios a) k_message = inr (JString (ax_message a)).
Proof. reflexivity. Qed.

Lemma axios_status a : opt_get (axios_response_value a) k_status = status_value a.
Proof. unfold axios_response_value, status_value. destruct (ax_response a); reflexivity. Qed.

Lemma axios_data a : opt_get (axios_response_value a) k_data = response_data a.
Proof. unfold axios_response_value, response_data. destruct (ax_response a); reflexivity. Qed.

Lemma is_number_status a n : is_number (status_value a) n = true <-> response_status a = Some n.
Proof.
  unfold status_value, response_status. destruct (ax_response a); simpl.
  - rewrite Z.eqb_eq. split; congruence.
  - split; discriminate.
Qed.

Lemma is_number_status_other a n n' :
  response_status a = Some n -> n' <> n -> is_number (status_value a) n' = false.
Proof.
  unfold status_value, response_status. destruct (ax_response a); simpl; intros H Hn;
    [| discriminate]. injection H as <-. apply Z.eqb_neq. congruence.
Qed.

Lemma is_string_code a s :
  is_string (match ax_code a with Some c => JString c | None => JUndefined end) s = true
  <-> ax_code a = Some s.
Proof.
  destruct (ax_code a) as [c |]; simpl; [| split; discriminate].
  unfold jsstring_eqb. destruct (list_eq_dec Z.eq_dec c s); split; congruence.
Qed.

(** The message expression of [getReadableErrorMessage] on an axios error. *)
Lemma readable_message_axios a :
  getReadableErrorMessage (TAxios a)
  = inr (if is_number (status_value a) 413 then JString too_large_msg
         else if is_number (status_value a) 415 then JString unsupported_type_msg
         else if is_number (status_value a) 401 then JString bad_token_msg
         else if is_string (match ax_code a with Some c => JString c | None => JUndefined end)
                   (js "ECONNREFUSED") then JString no_connection_msg
         else js_or (data_message a) (js_or (JString (ax_message a))
                                           (JString unknown_failure_msg))).
Proof.
  unfold getReadableErrorMessage. rewrite prop_axios_response. cbn [bind].
  rewrite axios_status, axios_data. fold (data_message a).
  rewrite prop_axios_code, prop_axios_message. cbn [bind].
  repeat match goal with |- context [if ?b then _ else _] => destruct b end; reflexivity.
Qed.

Lemma fromError_axios a :
  fromError (TAxios a)
  = match getReadableErrorMessage (TAxios a) with
    | inl t => t
    | inr v =>
        match to_string v with
        | inr m => TImgfans m (status_value a) (response_data a) (Some (TAxios a))
        | inl t => t
        end
    end.
Proof.
  unfold fromError. cbn [isAxiosError]. rewrite prop_axios_response. cbn [bind].
  rewrite axios_status, axios_data.
  destruct (getReadableErrorMessage (TAxios a)) as [t | v]; cbn [bind]; [reflexivity |].
  destruct (to_string v); reflexivity.
Qed.

Lemma js_or_string m d : js_or (JString m) (JString d) = JString (or_str (Some m) d).
Proof. destruct m; reflexivity. Qed.

(** Claim C6, as the code has it.  [ImgfansError.fromError] on an axios
    failure picks the message value by the response status (413, 415, 401),
    then by the code [ECONNREFUSED], and otherwise takes the server's
    [data.message] when it is truthy, whatever its type, else the axios
    error's own message when non-empty, else the generic string.  The value
    is converted to a string by [new ImgfansError]; when that succeeds the
    result carries [response.status], [response.data] and the axios error as
    cause, and when it throws (an object message with an own [toString]) the
    [TypeError] is what is thrown.  An [Error] that is not an axios error
    keeps its own message (or "An unexpected error occurred") and carries it
    as cause only; a thrown [undefined] or [null] makes [fromError] throw a
    [TypeError]. *)
Theorem fromError_mapping :
  (forall a : axios_error,
     exists v,
       getReadableErrorMessage (TAxios a) = inr v
       /\ fromError (TAxios a)
          = match to_string v with
            | inr m => TImgfans m (status_value a) (response_data a) (Some (TAxios a))
            | inl t => t
            end
       /\ (response_status a = Some 413 -> v = JString too_large_msg)
       /\ (response_status a = Some 415 -> v = JString unsupported_type_msg)
       /\ (response_status a = Some 401 -> v = JString bad_token_msg)
       /\ (response_status a <> Some 413 -> response_status a <> Some 415 ->
           response_status a <> Some 401 ->
           (ax_code a = Some (js "ECONNREFUSED") -> v = JString no_connection_msg)
           /\ (ax_code a <> Some (js "ECONNREFUSED") ->
               (truthy (data_message a) = true -> v = data_message a)
               /\ (truthy (data_message a) = false -> ax_message a <> [] ->
                   v = JString (ax_message a))
               /\ (truthy (data_message a) = false -> ax_message a = [] ->
                   v = JString unknown_failure_msg))))
  /\ (forall m,
        fromError (TTypeError m)
        = TImgfans (or_str (Some m) unexpected_msg) JUndefined JUndefined (Some (TTypeError m))
        /\ fromError (TPlain m)
           = TImgfans (or_str (Some m) unexpected_msg) JUndefined JUndefined (Some (TPlain m))
        /\ forall st rs c,
             fromError (TImgfans m st rs c)
             = TImgfans (or_str (Some m) unexpected_msg) JUndefined JUndefined
                 (Some (TImgfans m st rs c)))
  /\ (forall v, nullish v = true -> exists t, fromError (TValue v) = TTypeError t).
Proof.
  split; [| split].
  - intros a. eexists. split; [apply readable_message_axios |].
    split; [rewrite fromError_axios, readable_message_axios; reflexivity |].
    split; [| split; [| split]].
    + intros H. apply is_number_status in H. rewrite H. reflexivity.
    + intros H. rewrite (is_number_status_other a 415 413 H) by lia.
      apply is_number_status in H. rewrite H. reflexivity.
    + intros H. rewrite (is_number_status_other a 401 413 H) by lia.
      rewrite (is_number_status_other a 401 415 H) by lia.
      apply is_number_status in H. rewrite H. reflexivity.
    + intros H1 H2 H3.
      destruct (is_number (status_value a) 413) eqn:E1;
        [apply is_number_status in E1; contradiction |].
      destruct (is_number (status_value a) 415) eqn:E2;
        [apply is_number_status in E2; contradiction |].
      destruct (is_number (status_value a) 401) eqn:E3;
        [apply is_number_status in E3; contradiction |].
      split.
      * intros Hc. apply is_string_code in Hc. rewrite Hc. reflexivity.
      * intros Hc.
        destruct (is_string (match ax_code a with Some c => JString c | None => JUndefined end)
                    (js "ECONNREFUSED")) eqn:Ec;
          [apply is_string_code in Ec; contradiction |].
        unfold js_or. split; [| split].
        -- intros Ht. rewrite Ht. reflexivity.
        -- intros Ht Hm. rewrite Ht. destruct (ax_message a); [contradiction | reflexivity].
        -- intros Ht Hm. rewrite Ht, Hm. reflexivity.
  - intros m. split; [| split]; [destruct m; reflexivity .. |].
    intros st rs c. destruct m; reflexivity.
  - intros v Hv. destruct v; try discriminate Hv; eexists; reflexivity.
Qed.

Lemma fromError_mapping_witness :
  fromError (TAxios too_large_error)
  = TImgfans too_large_msg (JNumber 413) (response_data too_large_error)
      (Some (TAxios too_large_error))
  /\ fromError (TAxios numeric_message_error)
     = TImgfans (js "5") (JNumber 500) (response_data numeric_message_error)
         (Some (TAxios numeric_message_error)).
Proof.
  split.
  - destruct (proj1 fromError_mapping too_large_error) as [v [_ [Heq [H413 _]]]].
    rewrite Heq, (H413 eq_refl). reflexivity.
  - destruct (proj1 fromError_mapping numeric_message_error)
      as [v [_ [Heq [_ [_ [_ Hrest]]]]]].
    destruct (Hrest ltac:(discriminate) ltac:(discriminate) ltac:(discriminate))
      as [_ Hother].
    rewrite Heq, (proj1 (Hother ltac:(discriminate)) eq_refl). reflexivity.
Defined.

(** Claim C6 fails as stated: an axios timeout has no server message, and
    its mapped message is the axios message, not the generic string; and a
    server message that cannot be converted to a string makes [fromError]
    throw a [TypeError], which carries no status code. *)
Lemma fromError_falls_back_to_axios_message :
  ax_response timeout_error = None
  /\ fromError (TAxios timeout_error)
     = TImgfans (js "timeout of 5000ms exceeded") JUndefined JUndefined
         (Some (TAxios timeout_error))
  /\ js "timeout of 5000ms exceeded" <> unknown_failure_msg
  /\ response_status unconvertible_message_error = Some 500
  /\ fromError (TAxios unconvertible_message_error) = TTypeError cannot_convert_msg.
Proof.
  split; [reflexivity | split; [reflexivity | split; [discriminate | split; reflexivity]]].
Qed.

(** ** Construction *)

(** Claim C8: construction fails with the token-required [ImgfansError]
    when the token is missing or empty, and succeeds, with the bearer
    header, for any non-empty token.  [construct] performs no request. *)
Theorem construct_token_gate (c : ImgfansConfig) :
  match token c with
  | Some ((_ :: _) as t) =>
      exists cl, construct c = inr cl /\ client_authorization cl = js "Bearer " ++ t
  | _ => construct c = inl (ImgfansError token_required_msg)
  end.
Proof.
  unfold construct. destruct (token c) as [[| x t] |]; [reflexivity | eauto | reflexivity].
Qed.

(** * Further properties of the code *)

(** ** What [fromError] throws *)








(** ** Errors through [upload] *)

Lemma or_str_nonempty a b : b <> [] -> or_str a b <> [].
Proof. destruct a as [[| c s] |]; simpl; congruence. Qed.

Lemma or_str_some_nonempty m b : m <> [] -> or_str (Some m) b = m.
Proof. destruct m; simpl; congruence. Qed.


Lemma fromError_imgfans m st rs c :
  fromError (TImgfans m st rs c)
  = TImgfans (or_str (Some m) unexpected_msg) JUndefined JUndefined (Some (TImgfans m st rs c)).
Proof. destruct m; reflexivity. Qed.





Lemma fromError_axios_ok a v m :
  getReadableErrorMessage (TAxios a) = inr v -> to_string v = inr m ->
  fromError (TAxios a) = TImgfans m (status_value a) (response_data a) (Some (TAxios a)).
Proof. intros Hv Hm. rewrite fromError_axios, Hv, Hm. reflexivity. Qed.

(** An axios failure, of the upload request or of the fetch of a URL input,
    whose readable message converts to the string [m], reaches the caller
    of [upload] as an [ImgfansError] with message [m], or "An unexpected
    error occurred" when [m] is empty; its [statusCode] and [response] are
    undefined, the error that carries them is nested in the cause. *)
Theorem upload_axios_failure_message (E : env) (cl : ImgfansClient) (send : transport)
    (h : option jsstring) (a : axios_error) (v : jsval) (m : jsstring) :
  getReadableErrorMessage (TAxios a) = inr v -> to_string v = inr m ->
  (forall input pf fn,
     preprocessInput E input h = inr (pf, fn) ->
     formData_append pf = inr tt ->
     send (upload_request_of cl pf fn) = inl (TAxios a) ->
     upload E cl send input h
     = inl (TImgfans (or_str (Some m) unexpected_msg) JUndefined JUndefined
              (Some (fromError (fromError (TAxios a))))))
  /\ (forall s, is_url s = true -> axios_get E s = inl (TAxios a) ->
        upload E cl send (InString s) h
        = inl (TImgfans (or_str (Some m) unexpected_msg) JUndefined JUndefined
                 (Some (fromError (TAxios a))))).
Proof.
  intros Hv Hm. pose proof (fromError_axios_ok a v m Hv Hm) as Hf.
  assert (Hne : or_str (Some m) unexpected_msg <> []) by (apply or_str_nonempty; cbv; discriminate).
  split.
  - intros input pf fn Hp Ha Hs. unfold upload. rewrite Hp. cbn [bind].
    unfold performUpload. rewrite Ha. cbn [bind]. rewrite Hs.
    rewrite Hf, fromError_imgfans, fromError_imgfans.
    rewrite (or_str_some_nonempty _ _ Hne). reflexivity.
  - intros s Hurl Hget. unfold upload, preprocessInput, preprocess_body.
    fold (is_url s). rewrite Hurl, Hget. cbn [bind].
    rewrite Hf, fromError_imgfans. reflexivity.
Qed.

Lemma upload_axios_failure_message_witness :
  upload env_offline demo_client send_413 (InBuffer [1; 2; 3]) None
  = inl (TImgfans too_large_msg JUndefined JUndefined
           (Some (fromError (fromError (TAxios too_large_error)))))
  /\ upload env_offline demo_client send_500_empty_array (InBuffer [1; 2; 3]) None
     = inl (TImgfans unexpected_msg JUndefined JUndefined
              (Some (fromError (fromError (TAxios empty_array_message_error))))).
Proof.
  split.
  - apply (proj1 (upload_axios_failure_message env_offline demo_client send_413 None
                    too_large_error (JString too_large_msg) too_large_msg eq_refl eq_refl)
             (InBuffer [1; 2; 3]) (PBuffer [1; 2; 3]) image_png); reflexivity.
  - apply (proj1 (upload_axios_failure_message env_offline demo_client send_500_empty_array
                    None empty_array_message_error (JArray []) [] eq_refl eq_refl)
             (InBuffer [1; 2; 3]) (PBuffer [1; 2; 3]) image_png); reflexivity.
Defined.

(** A [Blob] input is never uploaded: whatever the environment, the
    transport and the filename, [upload] sends no request and fails with the
    [ImgfansError] wrapping form-data's [TypeError]. *)
Theorem upload_blob_never_sent (E : env) (cl : ImgfansClient) (send : transport)
    (k : Z) (h : option jsstring) :
  upload E cl send (InBlob k) h
  = inl (TImgfans source_on_msg JUndefined JUndefined (Some (TTypeError source_on_msg))).
Proof. reflexivity. Qed.

(** ** Base64 decoding yields bytes *)

Lemma unbase64_range c v : unbase64 c = Some v -> 0 <= v < 64.
Proof.
  unfold unbase64. intros H.
  repeat match goal with
  | H : (if ?b then _ else _) = _ |- _ => destruct b eqn:?
  end; try discriminate H; injection H as <-;
    repeat match goal with
    | E : (_ && _) = true |- _ => apply andb_prop in E as [? ?]
    end;
    repeat match goal with
    | E : (_ <=? _) = true |- _ => apply Z.leb_le in E
    end; lia.
Qed.

Lemma sextets_range s : Forall (fun v => 0 <= v < 64) (sextets s).
Proof.
  induction s as [| c s IH]; cbn [sextets]; [constructor |].
  destruct (unbase64 (Z.land c 255)) as [v |] eqn:Ev.
  - constructor; [exact (unbase64_range _ _ Ev) | exact IH].
  - destruct (Z.land c 255 =? 61); [constructor | exact IH].
Qed.

(** Induction over a list four elements at a time, as the decoder walks it. *)
Definition list_ind4 (P : list Z -> Prop) (H0 : P []) (H1 : forall a, P [a])
    (H2 : forall a b, P [a; b]) (H3 : forall a b c, P [a; b; c])
    (H4 : forall a b c d r, P r -> P (a :: b :: c :: d :: r)) : forall l, P l :=
  fix F l :=
    match l with
    | [] => H0
    | [a] => H1 a
    | [a; b] => H2 a b
    | [a; b; c] => H3 a b c
    | a :: b :: c :: d :: r => H4 a b c d r (F r)
    end.

Lemma sextets_to_bytes_spec l :
  Forall (fun v => 0 <= v < 64) l ->
  Forall is_byte (sextets_to_bytes l)
  /\ List.length (sextets_to_bytes l) = (3 * List.length l / 4)%nat.
Proof.
  induction l as [| a | a b | a b c | a b c d r IH] using list_ind4; intros Hall;
    repeat match goal with
    | H : Forall _ (_ :: _) |- _ => inversion H; subst; clear H
    end; unfold is_byte.
  - split; [constructor | reflexivity].
  - split; [constructor | reflexivity].
  - split; [repeat constructor; zrange | reflexivity].
  - split; [repeat constructor; zrange | reflexivity].
  - destruct (IH ltac:(assumption)) as [Hb Hl]. cbn [sextets_to_bytes].
    split; [repeat constructor; try zrange; exact Hb |].
    cbn [List.length]. rewrite Hl.
    replace (3 * S (S (S (S (List.length r)))))%nat with (3 * 4 + 3 * List.length r)%nat
      by lia.
    rewrite Nat.div_add_l by lia. reflexivity.
Qed.

(** [Buffer.from(payload, 'base64')] yields bytes, whatever the string: as
    many as three quarters of the base64 digits read before the first
    ['='], rounded down. *)
Theorem base64_decode_bytes (s : jsstring) :
  Forall is_byte (base64_decode s)
  /\ List.length (base64_decode s) = (3 * List.length (sextets s) / 4)%nat.
Proof. apply sextets_to_bytes_spec, sextets_range. Qed.

(** ** Normalisation: what each input touches *)

(** A string that is not an http(s) URL is never fetched: its result depends
    on the file system only, not on the network or the URL parser. *)
Theorem preprocess_non_url_no_fetch (E E' : env) (s : jsstring) (h : option jsstring) :
  is_url s = false -> existsSync E' = existsSync E ->
  preprocessInput E' (InString s) h = preprocessInput E (InString s) h.
Proof.
  intros Hurl Hex. unfold preprocessInput, preprocess_body. fold (is_url s).
  rewrite Hurl, Hex. reflexivity.
Qed.

Lemma preprocess_non_url_no_fetch_witness :
  preprocessInput env_offline (InString (js "./photo.jpg")) None
  = preprocessInput (mk_env (fun _ => false) (fun _ => inr []) (fun _ => Some []))
      (InString (js "./photo.jpg")) None.
Proof.
  symmetry. apply preprocess_non_url_no_fetch; reflexivity.
Defined.

(** ** Detected filenames carry no directory *)

Lemma take_segment_no_slash r : ~ In 47 (take_segment r).
Proof.
  induction r as [| c r IH]; simpl; [tauto |].
  destruct (Z.eqb_spec c 47); simpl; [tauto |].
  intros [H | H]; [congruence | exact (IH H)].
Qed.

Lemma basename_no_slash p : ~ In 47 (basename p).
Proof.
  unfold basename. rewrite <- in_rev. apply take_segment_no_slash.
Qed.

Lemma not_in_by_existsb (x : Z) (l : list Z) : existsb (Z.eqb x) l = false -> ~ In x l.
Proof.
  intros H Hin. assert (existsb (Z.eqb x) l = true) as Ht.
  { apply existsb_exists. exists x. split; [exact Hin | apply Z.eqb_refl]. }
  congruence.
Qed.

(** The filename [preprocessInput] detects never contains a ['/'] unless
    the caller's hint does: a path or URL contributes only its base name. *)
Theorem detected_filename_no_slash (E : env) (input : UploadInput) (h : option jsstring)
    (pf : ProcessedFile) (fn : jsstring) :
  (forall n, h = Some n -> ~ In 47 n) ->
  preprocessInput E input h = inr (pf, fn) -> ~ In 47 fn.
Proof.
  intros Hh.
  assert (Hor : forall d, ~ In 47 d -> ~ In 47 (or_str h d)).
  { intros d Hd. destruct h as [[| c n] |]; simpl; [exact Hd | exact (Hh _ eq_refl) | exact Hd]. }
  assert (Hpng : ~ In 47 image_png) by (apply not_in_by_existsb; reflexivity).
  unfold preprocessInput, preprocess_body.
  destruct input as [s | b | k | k |];
    try (intros H; inversion H; subst; apply Hor, Hpng).
  destruct (startsWith s (js "http://") || startsWith s (js "https://")).
  - destruct (axios_get E s); [discriminate |].
    destruct (truthy_str h) eqn:Ht.
    + intros H; inversion H; subst. apply Hor. simpl. tauto.
    + destruct (url_pathname E s); [| discriminate].
      intros H; inversion H; subst. apply basename_no_slash.
  - destruct (if startsWith s (js "data:image/") then data_uri_match s else None)
      as [[? ?] |].
    + intros H; inversion H; subst. apply Hor, Hpng.
    + destruct (existsSync E s); [| discriminate].
      intros H; inversion H; subst. apply Hor, basename_no_slash.
Qed.

Lemma detected_filename_no_slash_witness :
  preprocessInput env_files (InString (js "./photo.jpg")) None
    = inr (PFileStream (js "./photo.jpg"), js "photo.jpg")
  /\ ~ In 47 (js "photo.jpg").
Proof.
  split; [reflexivity |].
  apply (detected_filename_no_slash env_files (InString (js "./photo.jpg")) None
           (PFileStream (js "./photo.jpg"))).
  - discriminate.
  - reflexivity.
Defined.

(** ** The data-URI regular expression *)

Lemma startsWith_app s p : startsWith s p = true -> s = p ++ skipn (List.length p) s.
Proof.
  revert s. induction p as [| c p IH]; intros s H; [reflexivity |].
  destruct s as [| d s]; [discriminate |].
  simpl in H. apply andb_prop in H as [Hc Hs]. apply Z.eqb_eq in Hc. subst d.
  simpl. f_equal. apply IH, Hs.
Qed.

Lemma startsWith_app_self p y : startsWith (p ++ y) p = true.
Proof.
  induction p as [| c p IH]; simpl; [destruct y; reflexivity | rewrite Z.eqb_refl; exact IH].
Qed.

Lemma base64_sep_length : List.length base64_sep = 8%nat.
Proof. reflexivity. Qed.

Lemma split_groups_sound r : forall m m' p,
  split_groups m r = Some (m', p) -> m ++ r = m' ++ base64_sep ++ p /\ m' <> [] /\ p <> [].
Proof.
  induction r as [| c r IH]; intros m m' p H; [discriminate |].
  cbn [split_groups] in H. destruct (split_groups (m ++ [c]) r) as [g |] eqn:Hd.
  - inversion H; subst g. destruct (IH _ _ _ Hd) as [He Hne].
    rewrite <- app_assoc in He. exact (conj He Hne).
  - destruct m as [| x m0]; [discriminate |].
    destruct (skipn 8 (c :: r)) as [| y p0] eqn:Hsk; [discriminate |].
    destruct (startsWith (c :: r) base64_sep) eqn:Hs; [| discriminate].
    inversion H; subst m' p. split; [| split; discriminate].
    f_equal. rewrite <- Hsk. apply startsWith_app. exact Hs.
Qed.

Lemma split_groups_none r : forall m,
  split_groups m r = None ->
  forall x y, r = x ++ base64_sep ++ y -> m ++ x = [] \/ y = [].
Proof.
  induction r as [| c r IH]; intros m H x y Hr.
  - destruct x; discriminate.
  - cbn [split_groups] in H. destruct (split_groups (m ++ [c]) r) as [g |] eqn:Hd; [discriminate |].
    destruct x as [| c' x].
    + cbn [app] in Hr. rewrite Hr in H.
      rewrite startsWith_app_self in H.
      change (skipn 8 (base64_sep ++ y)) with (skipn (List.length base64_sep) (base64_sep ++ y)) in H.
      rewrite skipn_app, skipn_all, Nat.sub_diag in H. simpl in H.
      destruct m; [left; reflexivity |]. destruct y; [right; reflexivity | discriminate].
    + cbn [app] in Hr. inversion Hr as [[Hc Hr']]; subst c'.
      destruct (IH _ Hd x y Hr') as [Hm | Hy]; [| right; exact Hy].
      destruct m; discriminate.
Qed.

Lemma split_groups_greedy r : forall m m' p,
  split_groups m r = Some (m', p) -> forall x y, p = x ++ base64_sep ++ y -> y = [].
Proof.
  induction r as [| c r IH]; intros m m' p H x y Hp; [discriminate |].
  cbn [split_groups] in H. destruct (split_groups (m ++ [c]) r) as [g |] eqn:Hd.
  - inversion H; subst g. exact (IH _ _ _ Hd x y Hp).
  - destruct m as [| z m0]; [discriminate |].
    destruct (skipn 8 (c :: r)) as [| w p0] eqn:Hsk; [discriminate |].
    destruct (startsWith (c :: r) base64_sep) eqn:Hs; [| discriminate].
    injection H as Hm' Hpp. subst m'. rewrite <- Hpp in Hp.
    apply startsWith_app in Hs. rewrite base64_sep_length, Hsk, Hp in Hs.
    change base64_sep with (59 :: tl base64_sep) in Hs at 1. cbn [app] in Hs.
    apply (f_equal (@tl Z)) in Hs. cbn [tl] in Hs.
    rewrite app_assoc in Hs. rename Hs into Hr.
    destruct (split_groups_none r _ Hd (tl base64_sep ++ x) y Hr) as [Hm | Hy];
      [| exact Hy].
    destruct m0; discriminate.
Qed.

(** What [/^data:(.+);base64,(.+)$/] accepts: the string is ["data:"], the
    mime group, [";base64,"] and the payload group, both groups non-empty
    and the payload free of line terminators; and the payload is the part
    after the LAST [";base64,"] that leaves it non-empty (the first group is
    greedy), so a [";base64,"] inside the payload can only be its very end. *)
Theorem data_uri_match_sound (s m p : jsstring) :
  data_uri_match s = Some (m, p) ->
  s = js "data:" ++ m ++ base64_sep ++ p
  /\ m <> [] /\ p <> []
  /\ forallb (fun c => negb (is_line_terminator c)) p = true
  /\ (forall x y, p = x ++ base64_sep ++ y -> y = []).
Proof.
  unfold data_uri_match. intros H.
  destruct (startsWith s (js "data:")) eqn:Hd; [| discriminate].
  destruct (forallb (fun c => negb (is_line_terminator c)) s) eqn:Hl; [| discriminate].
  cbn [andb] in H.
  destruct (split_groups_sound _ _ _ _ H) as [Hs [Hm Hp]]. cbn [app] in Hs.
  assert (Hsplit : s = js "data:" ++ m ++ base64_sep ++ p).
  { apply startsWith_app in Hd.
    assert (Hlen : List.length (js "data:") = 5%nat) by reflexivity.
    rewrite Hlen, Hs in Hd. exact Hd. }
  split; [exact Hsplit | split; [exact Hm | split; [exact Hp | split]]].
  - rewrite Hsplit, !forallb_app in Hl.
    apply andb_prop in Hl as [_ Hl]. apply andb_prop in Hl as [_ Hl].
    apply andb_prop in Hl as [_ Hl]. exact Hl.
  - exact (split_groups_greedy _ _ _ _ H).
Qed.

Lemma data_uri_match_sound_witness :
  data_uri_match (js "data:image/png;base64,AA;base64,QUJD")
    = Some (js "image/png;base64,AA", js "QUJD")
  /\ js "data:image/png;base64,AA;base64,QUJD"
     = js "data:" ++ js "image/png;base64,AA" ++ base64_sep ++ js "QUJD".
Proof.
  split; [reflexivity |].
  apply (data_uri_match_sound (js "data:image/png;base64,AA;base64,QUJD")
           (js "image/png;base64,AA") (js "QUJD")).
  reflexivity.
Defined.

(** ** Accessors compose *)

(** When [getAllReferences] succeeds, its directLink, html and markdown
    entries are what [getDirectLink], [getHtmlCode] and [getMarkdownCode]
    return on the same response. *)
Theorem getAllReferences_agrees (r v : jsval) :
  getAllReferences r = inr v ->
  exists dl dw bb ht md,
    v = JObject [(js "directLink", dl); (js "downloadLink", dw); (js "bbcode", bb);
                 (js "html", ht); (js "markdown", md)]
    /\ getDirectLink r = inr dl /\ getHtmlCode r = inr ht /\ getMarkdownCode r = inr md.
Proof.
  unfold getAllReferences, getDirectLink, getHtmlCode, getMarkdownCode, reference_code.
  destruct (validateResponse r); cbn [bind]; [discriminate |].
  walk_reads; try discriminate.
  intros H; injection H as <-.
  do 5 eexists. split; [reflexivity |].
  repeat match goal with H : get _ _ = inr _ |- _ => rewrite H; cbn [bind]; clear H end.
  split; [reflexivity | split; reflexivity].
Qed.

Lemma getAllReferences_agrees_witness :
  exists dl dw bb ht md,
    getDirectLink response_full = inr dl /\ getHtmlCode response_full = inr ht
    /\ getMarkdownCode response_full = inr md
    /\ getAllReferences response_full
       = inr (JObject [(js "directLink", dl); (js "downloadLink", dw); (js "bbcode", bb);
                       (js "html", ht); (js "markdown", md)]).
Proof.
  destruct (getAllReferences_agrees response_full _ eq_refl)
    as [dl [dw [bb [ht [md [Hv [Hd [Hh Hm]]]]]]]].
  exists dl, dw, bb, ht, md. rewrite <- Hv. repeat split; assumption.
Defined.

(** The accessors fail in exactly two ways: the invalid-response
    [ImgfansError] of [validateResponse], or a [TypeError] of a property
    read; they never raise anything else. *)
Theorem accessor_failures (r : jsval) (e : thrown) :
  getDirectLink r = inl e \/ getMarkdownCode r = inl e \/ getHtmlCode r = inl e
  \/ getAllReferences r = inl e ->
  e = ImgfansError invalid_response_msg \/ exists m, e = TTypeError m.
Proof.
  unfold getDirectLink, getMarkdownCode, getHtmlCode, getAllReferences, reference_code.
  unfold validateResponse. destruct (truthy (references_of r)); cbn [bind].
  - intros H. right.
    repeat destruct H as [H | H];
      revert H; walk_reads; intros H; inversion H; subst; eauto using get_inl_type_error.
  - intros H. left. repeat destruct H as [H | H]; inversion H; reflexivity.
Qed.

Lemma accessor_failures_witness :
  getDirectLink response_without_direct_link = inl (TTypeError code_of_undefined_msg)
  /\ (TTypeError code_of_undefined_msg = ImgfansError invalid_response_msg
      \/ exists m, TTypeError code_of_undefined_msg = TTypeError m).
Proof.
  split; [reflexivity |].
  apply (accessor_failures response_without_direct_link). left. reflexivity.
Defined.
